(** * Logger middleware: the configuration resolver

    A shallow embedding of [middleware/logger/config.go]: the [Config]
    struct, the package-level [ConfigDefault] value and the helper
    [configDefault] that merges a caller-supplied configuration with the
    defaults.

    Conventions of the embedding.
    - A Go value that may be [nil] (an interface, a func value, a map, a
      pointer) is an [option]: [None] is [nil].
    - Func values are opaque: Go only allows comparing them with [nil], and
      the resolver never calls them.  Each Go func type is a type variable.
    - [time.Duration] is an [int64] counting nanoseconds, here a [Z] in the
      [int64] range.
    - Go's [int] is 32 or 64 bits wide depending on the target; the
      conversion [int(d)] of a wider value keeps the low bits, read as a
      signed number. *)

From stdpp Require Import base decidable option strings gmap.
From Stdlib Require Import ZArith Lia.

Local Open Scope Z_scope.

Module Logger.

(** ** Machine integers *)

(** The width of Go's [int] on the build target ([strconv.IntSize]). *)
Inductive IntSize := Int32 | Int64.

Definition bits (w : IntSize) : Z :=
  match w with Int32 => 32 | Int64 => 64 end.

(** Two's complement reading of the low [n] bits of [x]. *)
Definition truncate_signed (n x : Z) : Z :=
  let r := x mod 2 ^ n in
  if r <? 2 ^ (n - 1) then r else r - 2 ^ n.

(** [int(x)] for an [int64] value [x]. *)
Definition to_int (w : IntSize) (x : Z) : Z := truncate_signed (bits w) x.

Definition int64_range (x : Z) : Prop := - 2 ^ 63 <= x < 2 ^ 63.
Definition int32_range (x : Z) : Prop := - 2 ^ 31 <= x < 2 ^ 31.

(** [time.Millisecond], in nanoseconds. *)
Definition Millisecond : Z := 1000000.
(** [time.Second], in nanoseconds. *)
Definition Second : Z := 1000 * Millisecond.

(** The line feed character, Go's ["\n"]. *)
Definition LF : string := String (Ascii.ascii_of_nat 10) EmptyString.

(** default logging format for Fiber's default logger *)
Definition defaultFormat : string :=
  "[${time}] ${ip} ${status} - ${latency} ${method} ${path} ${error}" +:+ LF.

Section Resolver.

(** Non-nil [io.Writer] values.  Comparing two interface values compares
    their dynamic types and values; it can only panic when both hold the
    same uncomparable dynamic type, which never happens against
    [os.Stdout], a [*os.File]. *)
Context {Writer : Type} `{EqDecision Writer}.

(** [os.Stdout] *)
Variable Stdout : Writer.

(** [func(c fiber.Ctx) bool], [func(c fiber.Ctx, logString []byte)],
    [LogFunc], [func(Config)],
    [func(c fiber.Ctx, data *Data, cfg Config) error] and
    [time.Location]. *)
Context {CtxPred DoneFunc LogFunc BeforeHandler LoggerFn Location : Type}.

(** The package funcs [beforeHandlerFunc] and [defaultLoggerInstance],
    declared in other files of the package. *)
Variable beforeHandlerFunc : BeforeHandler.
Variable defaultLoggerInstance : LoggerFn.

(** The width of [int] on the target the package is built for. *)
Variable intSize : IntSize.

(** Config defines the config for middleware. *)
Record Config := mkConfig {
  Stream : option Writer;
  Next : option CtxPred;
  Skip : option CtxPred;
  Done : option DoneFunc;
  CustomTags : option (gmap string LogFunc);
  BeforeHandlerFunc : option BeforeHandler;
  LoggerFunc : option LoggerFn;
  timeZoneLocation : option Location;
  Format : string;
  TimeFormat : string;
  TimeZone : string;
  TimeInterval : Z;
  DisableColors : bool;
  enableColors : bool;
  enableLatency : bool
}.

(** Field assignments [cfg.F = v]. *)
Definition set_Stream (cfg : Config) (v : option Writer) : Config :=
  mkConfig v (Next cfg) (Skip cfg) (Done cfg) (CustomTags cfg)
    (BeforeHandlerFunc cfg) (LoggerFunc cfg) (timeZoneLocation cfg)
    (Format cfg) (TimeFormat cfg) (TimeZone cfg) (TimeInterval cfg)
    (DisableColors cfg) (enableColors cfg) (enableLatency cfg).

Definition set_Next (cfg : Config) (v : option CtxPred) : Config :=
  mkConfig (Stream cfg) v (Skip cfg) (Done cfg) (CustomTags cfg)
    (BeforeHandlerFunc cfg) (LoggerFunc cfg) (timeZoneLocation cfg)
    (Format cfg) (TimeFormat cfg) (TimeZone cfg) (TimeInterval cfg)
    (DisableColors cfg) (enableColors cfg) (enableLatency cfg).

Definition set_Skip (cfg : Config) (v : option CtxPred) : Config :=
  mkConfig (Stream cfg) (Next cfg) v (Done cfg) (CustomTags cfg)
    (BeforeHandlerFunc cfg) (LoggerFunc cfg) (timeZoneLocation cfg)
    (Format cfg) (TimeFormat cfg) (TimeZone cfg) (TimeInterval cfg)
    (DisableColors cfg) (enableColors cfg) (enableLatency cfg).

Definition set_Done (cfg : Config) (v : option DoneFunc) : Config :=
  mkConfig (Stream cfg) (Next cfg) (Skip cfg) v (CustomTags cfg)
    (BeforeHandlerFunc cfg) (LoggerFunc cfg) (timeZoneLocation cfg)
    (Format cfg) (TimeFormat cfg) (TimeZone cfg) (TimeInterval cfg)
    (DisableColors cfg) (enableColors cfg) (enableLatency cfg).

Definition set_BeforeHandlerFunc (cfg : Config) (v : option BeforeHandler)
  : Config :=
  mkConfig (Stream cfg) (Next cfg) (Skip cfg) (Done cfg) (CustomTags cfg)
    v (LoggerFunc cfg) (timeZoneLocation cfg)
    (Format cfg) (TimeFormat cfg) (TimeZone cfg) (TimeInterval cfg)
    (DisableColors cfg) (enableColors cfg) (enableLatency cfg).

Definition set_LoggerFunc (cfg : Config) (v : option LoggerFn) : Config :=
  mkConfig (Stream cfg) (Next cfg) (Skip cfg) (Done cfg) (CustomTags cfg)
    (BeforeHandlerFunc cfg) v (timeZoneLocation cfg)
    (Format cfg) (TimeFormat cfg) (TimeZone cfg) (TimeInterval cfg)
    (DisableColors cfg) (enableColors cfg) (enableLatency cfg).

Definition set_Format (cfg : Config) (v : string) : Config :=
  mkConfig (Stream cfg) (Next cfg) (Skip cfg) (Done cfg) (CustomTags cfg)
    (BeforeHandlerFunc cfg) (LoggerFunc cfg) (timeZoneLocation cfg)
    v (TimeFormat cfg) (TimeZone cfg) (TimeInterval cfg)
    (DisableColors cfg) (enableColors cfg) (enableLatency cfg).

Definition set_TimeFormat (cfg : Config) (v : string) : Config :=
  mkConfig (Stream cfg) (Next cfg) (Skip cfg) (Done cfg) (CustomTags cfg)
    (BeforeHandlerFunc cfg) (LoggerFunc cfg) (timeZoneLocation cfg)
    (Format cfg) v (TimeZone cfg) (TimeInterval cfg)
    (DisableColors cfg) (enableColors cfg) (enableLatency cfg).

Definition set_TimeZone (cfg : Config) (v : string) : Config :=
  mkConfig (Stream cfg) (Next cfg) (Skip cfg) (Done cfg) (CustomTags cfg)
    (BeforeHandlerFunc cfg) (LoggerFunc cfg) (timeZoneLocation cfg)
    (Format cfg) (TimeFormat cfg) v (TimeInterval cfg)
    (DisableColors cfg) (enableColors cfg) (enableLatency cfg).

Definition set_TimeInterval (cfg : Config) (v : Z) : Config :=
  mkConfig (Stream cfg) (Next cfg) (Skip cfg) (Done cfg) (CustomTags cfg)
    (BeforeHandlerFunc cfg) (LoggerFunc cfg) (timeZoneLocation cfg)
    (Format cfg) (TimeFormat cfg) (TimeZone cfg) v
    (DisableColors cfg) (enableColors cfg) (enableLatency cfg).

Definition set_enableColors (cfg : Config) (v : bool) : Config :=
  mkConfig (Stream cfg) (Next cfg) (Skip cfg) (Done cfg) (CustomTags cfg)
    (BeforeHandlerFunc cfg) (LoggerFunc cfg) (timeZoneLocation cfg)
    (Format cfg) (TimeFormat cfg) (TimeZone cfg) (TimeInterval cfg)
    (DisableColors cfg) v (enableLatency cfg).

(** [x == nil] *)
Definition is_nil {A : Type} (x : option A) : bool :=
  match x with None => true | Some _ => false end.

(** ConfigDefault is the default config.  Fields the composite literal
    leaves out hold the zero value of their type.  It is a package
    variable; nothing in the file assigns to it, and the embedding takes
    the value it is declared with. *)
Definition ConfigDefault : Config := {|
  Next := None;
  Skip := None;
  Done := None;
  Format := defaultFormat;
  TimeFormat := "15:04:05";
  TimeZone := "Local";
  TimeInterval := 500 * Millisecond;
  Stream := Some Stdout;
  BeforeHandlerFunc := Some beforeHandlerFunc;
  LoggerFunc := Some defaultLoggerInstance;
  enableColors := true;
  CustomTags := None;
  timeZoneLocation := None;
  DisableColors := false;
  enableLatency := false
|}.

(** Helper function to set default values.  The variadic parameter is the
    list of the arguments passed. *)
Definition configDefault (config : list Config) : Config :=
  match config with
  | [] =>
      (* Return default config if nothing provided *)
      ConfigDefault
  | cfg :: _ =>
      (* Override default config; set default values *)
      let cfg := if is_nil (Next cfg)
                 then set_Next cfg (Next ConfigDefault) else cfg in
      let cfg := if is_nil (Skip cfg)
                 then set_Skip cfg (Skip ConfigDefault) else cfg in
      let cfg := if is_nil (Done cfg)
                 then set_Done cfg (Done ConfigDefault) else cfg in
      let cfg := if bool_decide (Format cfg = "")
                 then set_Format cfg (Format ConfigDefault) else cfg in
      let cfg := if bool_decide (TimeZone cfg = "")
                 then set_TimeZone cfg (TimeZone ConfigDefault) else cfg in
      let cfg := if bool_decide (TimeFormat cfg = "")
                 then set_TimeFormat cfg (TimeFormat ConfigDefault)
                 else cfg in
      let cfg := if to_int intSize (TimeInterval cfg) <=? 0
                 then set_TimeInterval cfg (TimeInterval ConfigDefault)
                 else cfg in
      let cfg := if is_nil (Stream cfg)
                 then set_Stream cfg (Stream ConfigDefault) else cfg in
      let cfg := if is_nil (BeforeHandlerFunc cfg)
                 then set_BeforeHandlerFunc cfg
                        (BeforeHandlerFunc ConfigDefault)
                 else cfg in
      let cfg := if is_nil (LoggerFunc cfg)
                 then set_LoggerFunc cfg (LoggerFunc ConfigDefault)
                 else cfg in
      (* Enable colors if no custom format or output is given *)
      let cfg := if negb (DisableColors cfg)
                    && bool_decide (Stream cfg = Stream ConfigDefault)
                 then set_enableColors cfg true else cfg in
      cfg
  end.


(** The conversion [int(x)] returns [x] itself on the target. *)
Definition fits_int (x : Z) : Prop := to_int intSize x = x.

(* Each assignment of [configDefault] mentions the previous struct three
   times: its unfolding is kept out of [simpl] and [cbn]. *)
Arguments configDefault : simpl never.

(** ** The resolver in closed form

    [merged c] is the record [configDefault] computes from a supplied
    [c], written field by field. *)
Definition merged (c : Config) : Config :=
  let stream := if is_nil (Stream c) then Some Stdout else Stream c in
  {| Stream := stream;
     Next := Next c;
     Skip := Skip c;
     Done := Done c;
     CustomTags := CustomTags c;
     BeforeHandlerFunc :=
       if is_nil (BeforeHandlerFunc c) then Some beforeHandlerFunc
       else BeforeHandlerFunc c;
     LoggerFunc :=
       if is_nil (LoggerFunc c) then Some defaultLoggerInstance
       else LoggerFunc c;
     timeZoneLocation := timeZoneLocation c;
     Format :=
       if bool_decide (Format c = "") then defaultFormat else Format c;
     TimeFormat :=
       if bool_decide (TimeFormat c = "") then "15:04:05" else TimeFormat c;
     TimeZone :=
       if bool_decide (TimeZone c = "") then "Local" else TimeZone c;
     TimeInterval :=
       if to_int intSize (TimeInterval c) <=? 0 then 500 * Millisecond
       else TimeInterval c;
     DisableColors := DisableColors c;
     enableColors :=
       if negb (DisableColors c) && bool_decide (stream = Some Stdout)
       then true else enableColors c;
     enableLatency := enableLatency c |}.

Lemma if_mkConfig (b : bool)
    a1 a2 a3 a4 a5 a6 a7 a8 a9 a10 a11 a12 a13 a14 a15
    b1 b2 b3 b4 b5 b6 b7 b8 b9 b10 b11 b12 b13 b14 b15 :
  (if b then mkConfig a1 a2 a3 a4 a5 a6 a7 a8 a9 a10 a11 a12 a13 a14 a15
   else mkConfig b1 b2 b3 b4 b5 b6 b7 b8 b9 b10 b11 b12 b13 b14 b15) =
  mkConfig (if b then a1 else b1) (if b then a2 else b2)
    (if b then a3 else b3) (if b then a4 else b4) (if b then a5 else b5)
    (if b then a6 else b6) (if b then a7 else b7) (if b then a8 else b8)
    (if b then a9 else b9) (if b then a10 else b10) (if b then a11 else b11)
    (if b then a12 else b12) (if b then a13 else b13)
    (if b then a14 else b14) (if b then a15 else b15).
Proof. destruct b; reflexivity. Qed.

Lemma if_same {A} (b : bool) (a : A) : (if b then a else a) = a.
Proof. destruct b; reflexivity. Qed.

Lemma if_nil_None {A} (x : option A) : (if is_nil x then None else x) = x.
Proof. destruct x; reflexivity. Qed.

(** One conditional assignment of the resolver: name the updated struct,
    bring it to constructor form and substitute it in what follows. *)
Ltac assignment :=
  match goal with
  | |- (let x := ?e in @?B x) = ?R =>
      change (let x := e in B x = R); cbv beta;
      let y := fresh "cfg" in
      let Hy := fresh "E" in
      intros y; pose proof (eq_refl : y = e) as Hy; clearbody y;
      cbv beta iota delta
        [Stream Next Skip Done CustomTags BeforeHandlerFunc
         LoggerFunc timeZoneLocation Format TimeFormat TimeZone
         TimeInterval DisableColors enableColors enableLatency
         set_Stream set_Next set_Skip set_Done set_BeforeHandlerFunc
         set_LoggerFunc set_Format set_TimeFormat set_TimeZone
         set_TimeInterval set_enableColors ConfigDefault] in Hy;
      rewrite if_mkConfig in Hy; rewrite ?if_same in Hy; subst y
  end.

Lemma configDefault_merged c r : configDefault (c :: r) = merged c.
Proof.
  destruct c. cbv beta iota delta [configDefault].
  do 11 assignment.
  cbv beta iota zeta delta [merged Stream Next Skip Done CustomTags
    BeforeHandlerFunc LoggerFunc timeZoneLocation Format TimeFormat
    TimeZone TimeInterval DisableColors enableColors enableLatency].
  now rewrite !if_nil_None.
Qed.

Lemma configDefault_nil : configDefault [] = ConfigDefault.
Proof. reflexivity. Qed.


(** ** Field by field *)

Lemma Stream_configDefault c r :
  Stream (configDefault (c :: r)) =
  if is_nil (Stream c) then Some Stdout else Stream c.
Proof. now rewrite configDefault_merged. Qed.

Lemma Next_configDefault c r : Next (configDefault (c :: r)) = Next c.
Proof. now rewrite configDefault_merged. Qed.

Lemma Skip_configDefault c r : Skip (configDefault (c :: r)) = Skip c.
Proof. now rewrite configDefault_merged. Qed.

Lemma Done_configDefault c r : Done (configDefault (c :: r)) = Done c.
Proof. now rewrite configDefault_merged. Qed.

Lemma BeforeHandlerFunc_configDefault c r :
  BeforeHandlerFunc (configDefault (c :: r)) =
  if is_nil (BeforeHandlerFunc c) then Some beforeHandlerFunc
  else BeforeHandlerFunc c.
Proof. now rewrite configDefault_merged. Qed.

Lemma LoggerFunc_configDefault c r :
  LoggerFunc (configDefault (c :: r)) =
  if is_nil (LoggerFunc c) then Some defaultLoggerInstance
  else LoggerFunc c.
Proof. now rewrite configDefault_merged. Qed.

Lemma Format_configDefault c r :
  Format (configDefault (c :: r)) =
  if bool_decide (Format c = "") then defaultFormat else Format c.
Proof. now rewrite configDefault_merged. Qed.

Lemma TimeFormat_configDefault c r :
  TimeFormat (configDefault (c :: r)) =
  if bool_decide (TimeFormat c = "") then "15:04:05" else TimeFormat c.
Proof. now rewrite configDefault_merged. Qed.

Lemma TimeZone_configDefault c r :
  TimeZone (configDefault (c :: r)) =
  if bool_decide (TimeZone c = "") then "Local" else TimeZone c.
Proof. now rewrite configDefault_merged. Qed.

Lemma TimeInterval_configDefault c r :
  TimeInterval (configDefault (c :: r)) =
  if to_int intSize (TimeInterval c) <=? 0 then 500 * Millisecond
  else TimeInterval c.
Proof. now rewrite configDefault_merged. Qed.

Lemma DisableColors_configDefault c r :
  DisableColors (configDefault (c :: r)) = DisableColors c.
Proof. now rewrite configDefault_merged. Qed.

Lemma enableColors_configDefault c r :
  enableColors (configDefault (c :: r)) =
  if negb (DisableColors c)
     && bool_decide (Stream (configDefault (c :: r)) = Some Stdout)
  then true else enableColors c.
Proof. now rewrite configDefault_merged. Qed.

Lemma is_nil_true {A} (x : option A) : is_nil x = true <-> x = None.
Proof. destruct x; simpl; split; congruence. Qed.

Lemma is_nil_false {A} (x : option A) : is_nil x = false <-> x <> None.
Proof. destruct x; simpl; split; congruence. Qed.

(** The resolved sink is the default stream exactly when the caller left
    the sink unset or named the default stream. *)
Lemma Stream_default_iff c r :
  Stream (configDefault (c :: r)) = Some Stdout <->
  Stream c = None \/ Stream c = Some Stdout.
Proof.
  rewrite Stream_configDefault.
  destruct (Stream c); simpl; split; auto; intros [?|?]; congruence.
Qed.

(** ** Conversions to [int] *)

Lemma to_int_Int64 x : int64_range x -> to_int Int64 x = x.
Proof.
  unfold int64_range, to_int, truncate_signed, bits.
  change (2 ^ 63) with 9223372036854775808.
  change (2 ^ (64 - 1)) with 9223372036854775808.
  change (2 ^ 64) with 18446744073709551616.
  intros Hx. cbv zeta.
  destruct (Z.ltb_spec (x mod 18446744073709551616) 9223372036854775808);
    Z.to_euclidean_division_equations; lia.
Qed.

Lemma to_int_Int32 x : int32_range x -> to_int Int32 x = x.
Proof.
  unfold int32_range, to_int, truncate_signed, bits.
  change (2 ^ 31) with 2147483648.
  change (2 ^ (32 - 1)) with 2147483648.
  change (2 ^ 32) with 4294967296.
  intros Hx. cbv zeta.
  destruct (Z.ltb_spec (x mod 4294967296) 2147483648);
    Z.to_euclidean_division_equations; lia.
Qed.

(** The default interval fits an [int] of either width. *)
Lemma to_int_default w : to_int w (500 * Millisecond) = 500 * Millisecond.
Proof. destruct w; reflexivity. Qed.

(** ** Properties of the resolver *)

Lemma defaultFormat_nonempty : defaultFormat <> "".
Proof. discriminate. Qed.

(** C1 (as amended): an empty [Format] is read as unset.  For every
    supplied config whose [Format] is the empty string, the resolved
    [Format] is the default format string, which is not empty. *)
Theorem empty_Format_defaulted c r :
  Format c = "" ->
  Format (configDefault (c :: r)) = defaultFormat /\
  Format (configDefault (c :: r)) <> "".
Proof.
  intros Hf. rewrite Format_configDefault, Hf. simpl.
  split; [reflexivity | apply defaultFormat_nonempty].
Qed.

(** C3: when the internal color flag starts disabled, the resolved config
    has colors enabled if and only if [DisableColors] is false and the
    sink is the default stream, either left unset (and then defaulted to
    standard output) or set to that same stream.  In particular setting
    [DisableColors], or a sink other than the default stream, leaves
    colors disabled. *)
Theorem colors_enabled_iff c r :
  enableColors c = false ->
  (enableColors (configDefault (c :: r)) = true <->
     DisableColors c = false /\
     (Stream c = None \/ Stream c = Some Stdout)) /\
  (Stream c = None -> Stream (configDefault (c :: r)) = Some Stdout) /\
  (DisableColors c = true ->
     enableColors (configDefault (c :: r)) = false) /\
  (forall w, Stream c = Some w -> w <> Stdout ->
     enableColors (configDefault (c :: r)) = false).
Proof.
  intros Hoff.
  assert (Hiff : enableColors (configDefault (c :: r)) = true <->
            DisableColors c = false /\
            (Stream c = None \/ Stream c = Some Stdout)).
  { rewrite enableColors_configDefault, Hoff, <- (Stream_default_iff c r).
    destruct (DisableColors c); cbn [negb andb].
    - split; [discriminate | intros [? _]; discriminate].
    - case_bool_decide; split; auto; try discriminate.
      intros [_ ?]; contradiction. }
  split; [exact Hiff|]. split; [|split].
  - intros Hs. apply Stream_default_iff. auto.
  - intros Hd. apply not_true_is_false. intros He.
    apply Hiff in He. destruct He as [He _]. congruence.
  - intros w Hs Hw. apply not_true_is_false. intros He.
    apply Hiff in He. destruct He as [_ [He|He]]; congruence.
Qed.

(** C5: the default format string is exactly
    [[${time}] ${ip} ${status} - ${latency} ${method} ${path} ${error}]
    followed by one line feed; it is the [Format] of [ConfigDefault], of
    the config resolved from no argument, and of the config resolved from
    an argument that supplies no format. *)
Theorem defaultFormat_exact :
  defaultFormat =
    "[${time}] ${ip} ${status} - ${latency} ${method} ${path} ${error}
" /\
  String.length defaultFormat = 66%nat /\
  String.get 65 defaultFormat = Some (Ascii.ascii_of_nat 10) /\
  Format ConfigDefault = defaultFormat /\
  Format (configDefault []) = defaultFormat /\
  (forall c r,
     Format (configDefault (c :: r)) =
     if bool_decide (Format c = "") then defaultFormat else Format c).
Proof.
  repeat split; try reflexivity. intros c r. apply Format_configDefault.
Qed.

(** C8: resolving twice is resolving once, for any argument list. *)
Theorem configDefault_idempotent config :
  configDefault [configDefault config] = configDefault config.
Proof.
  destruct config as [|c r].
  - rewrite configDefault_nil, configDefault_merged.
    unfold merged, ConfigDefault; cbn -[Z.mul defaultFormat to_int].
    rewrite to_int_default.
    now rewrite (bool_decide_eq_true_2 (Some Stdout = Some Stdout)).
  - rewrite !configDefault_merged. destruct c; unfold merged; simpl.
    f_equal.
    + now destruct Stream0.
    + now destruct BeforeHandlerFunc0.
    + now destruct LoggerFunc0.
    + destruct (bool_decide (Format0 = "")) eqn:Hb;
        [apply if_same | now rewrite Hb].
    + destruct (bool_decide (TimeFormat0 = "")) eqn:Hb;
        [apply if_same | now rewrite Hb].
    + destruct (bool_decide (TimeZone0 = "")) eqn:Hb;
        [apply if_same | now rewrite Hb].
    + destruct (to_int intSize TimeInterval0 <=? 0) eqn:Ht;
        [now rewrite to_int_default | now rewrite Ht].
    + destruct Stream0; cbn [is_nil];
        destruct (negb DisableColors0 && bool_decide _); reflexivity.
Qed.

(** C9: the resolver never clears the internal color flag.  A config whose
    [enableColors] is already true resolves to one with [enableColors]
    true, whatever [DisableColors] and the sink are. *)
Theorem enableColors_monotone c r :
  enableColors c = true -> enableColors (configDefault (c :: r)) = true.
Proof.
  intros Hon. rewrite enableColors_configDefault, Hon. apply if_same.
Qed.

(** C10: the custom tag mapping is returned as supplied.  The returned
    [CustomTags] is the input's: a nil mapping stays nil, it is not replaced
    by an empty map, and a non-nil mapping has the same entry under every
    tag name. *)
Theorem CustomTags_unchanged c r :
  CustomTags (configDefault (c :: r)) = CustomTags c /\
  (CustomTags c = None ->
     CustomTags (configDefault (c :: r)) = None /\
     CustomTags (configDefault (c :: r)) <> Some ∅) /\
  (forall m, CustomTags c = Some m ->
     exists m', CustomTags (configDefault (c :: r)) = Some m' /\
                forall tag, m' !! tag = m !! tag).
Proof.
  assert (Heq : CustomTags (configDefault (c :: r)) = CustomTags c)
    by now rewrite configDefault_merged.
  split; [exact Heq |]. split.
  - intros Hnil. rewrite Heq, Hnil. split; [reflexivity | discriminate].
  - intros m Hm. exists m. rewrite Heq. split; [exact Hm | reflexivity].
Qed.

(** ** What holds when the interval survives the conversion to [int]

    [int(cfg.TimeInterval)] is the interval itself on a 64-bit target, and
    on a 32-bit target for intervals within about 2.1 seconds of zero.
    Under that condition the resolver treats the interval as its
    documentation says. *)

Lemma fits_int_Int64 x : intSize = Int64 -> int64_range x -> fits_int x.
Proof. intros HI Hx. unfold fits_int. rewrite HI. now apply to_int_Int64. Qed.

Lemma fits_int_small x : int32_range x -> fits_int x.
Proof.
  intros Hx. unfold fits_int. destruct intSize.
  - now apply to_int_Int32.
  - apply to_int_Int64. unfold int32_range, int64_range in *. lia.
Qed.

(** The interval guard is the sign test: non-positive intervals are
    replaced by 500ms, positive ones kept. *)
Lemma TimeInterval_fits c r :
  fits_int (TimeInterval c) ->
  (TimeInterval c <= 0 ->
     TimeInterval (configDefault (c :: r)) = 500 * Millisecond) /\
  (0 < TimeInterval c ->
     TimeInterval (configDefault (c :: r)) = TimeInterval c).
Proof.
  intros Hfit. rewrite TimeInterval_configDefault, Hfit.
  destruct (Z.leb_spec (TimeInterval c) 0); split; intros; auto; lia.
Qed.

(** Unset fields take their documented defaults. *)
Lemma unset_fields_defaulted c r :
  fits_int (TimeInterval c) ->
  (Stream c = None -> Stream (configDefault (c :: r)) = Some Stdout) /\
  (Next c = None -> Next (configDefault (c :: r)) = None) /\
  (Skip c = None -> Skip (configDefault (c :: r)) = None) /\
  (Done c = None -> Done (configDefault (c :: r)) = None) /\
  (TimeFormat c = "" ->
     TimeFormat (configDefault (c :: r)) = "15:04:05") /\
  (TimeZone c = "" -> TimeZone (configDefault (c :: r)) = "Local") /\
  (TimeInterval c <= 0 ->
     TimeInterval (configDefault (c :: r)) = 500 * Millisecond).
Proof.
  intros Hfit.
  rewrite Stream_configDefault, Next_configDefault, Skip_configDefault,
    Done_configDefault, TimeFormat_configDefault, TimeZone_configDefault.
  repeat split; try (intros H; now rewrite H).
  now apply TimeInterval_fits.
Qed.

(** Every setting the caller made is in the returned config. *)
Lemma caller_settings_kept c r :
  fits_int (TimeInterval c) ->
  (Format c <> "" -> Format (configDefault (c :: r)) = Format c) /\
  (TimeFormat c <> "" ->
     TimeFormat (configDefault (c :: r)) = TimeFormat c) /\
  (TimeZone c <> "" -> TimeZone (configDefault (c :: r)) = TimeZone c) /\
  (Stream c <> None -> Stream (configDefault (c :: r)) = Stream c) /\
  Next (configDefault (c :: r)) = Next c /\
  Skip (configDefault (c :: r)) = Skip c /\
  Done (configDefault (c :: r)) = Done c /\
  (BeforeHandlerFunc c <> None ->
     BeforeHandlerFunc (configDefault (c :: r)) = BeforeHandlerFunc c) /\
  (LoggerFunc c <> None ->
     LoggerFunc (configDefault (c :: r)) = LoggerFunc c) /\
  (0 < TimeInterval c ->
     TimeInterval (configDefault (c :: r)) = TimeInterval c) /\
  DisableColors (configDefault (c :: r)) = DisableColors c.
Proof.
  intros Hfit.
  rewrite Format_configDefault, TimeFormat_configDefault,
    TimeZone_configDefault, Stream_configDefault, Next_configDefault,
    Skip_configDefault, Done_configDefault,
    BeforeHandlerFunc_configDefault, LoggerFunc_configDefault,
    DisableColors_configDefault.
  repeat split;
    try (intros H; now rewrite bool_decide_eq_false_2);
    try (intros H; apply is_nil_false in H; now rewrite H).
  now apply TimeInterval_fits.
Qed.

(** The resolved config has a sink, a time layout, a time zone, a positive
    interval and both funcs. *)
Lemma resolved_well_formed c r :
  fits_int (TimeInterval c) ->
  Stream (configDefault (c :: r)) <> None /\
  TimeFormat (configDefault (c :: r)) <> "" /\
  TimeZone (configDefault (c :: r)) <> "" /\
  0 < TimeInterval (configDefault (c :: r)) /\
  BeforeHandlerFunc (configDefault (c :: r)) <> None /\
  LoggerFunc (configDefault (c :: r)) <> None.
Proof.
  intros Hfit.
  rewrite Stream_configDefault, TimeFormat_configDefault,
    TimeZone_configDefault, BeforeHandlerFunc_configDefault,
    LoggerFunc_configDefault.
  repeat split.
  - now destruct (Stream c).
  - case_bool_decide; [discriminate | assumption].
  - case_bool_decide; [discriminate | assumption].
  - destruct (TimeInterval_fits c r Hfit) as [Hle Hgt].
    destruct (Z.le_gt_cases (TimeInterval c) 0) as [H|H].
    + now rewrite (Hle H).
    + now rewrite (Hgt H).
  - now destruct (BeforeHandlerFunc c).
  - now destruct (LoggerFunc c).
Qed.

(** Resolving no argument gives the defaults, on every target. *)
Lemma ConfigDefault_well_formed :
  Stream (configDefault []) = Some Stdout /\
  Next (configDefault []) = None /\
  Skip (configDefault []) = None /\
  Done (configDefault []) = None /\
  Format (configDefault []) = defaultFormat /\
  TimeFormat (configDefault []) = "15:04:05" /\
  TimeZone (configDefault []) = "Local" /\
  TimeInterval (configDefault []) = 500 * Millisecond /\
  BeforeHandlerFunc (configDefault []) = Some beforeHandlerFunc /\
  LoggerFunc (configDefault []) = Some defaultLoggerInstance /\
  enableColors (configDefault []) = true.
Proof. repeat split. Qed.

(** ** Further properties of the resolver, on every target *)

Lemma enableLatency_configDefault c r :
  enableLatency (configDefault (c :: r)) = enableLatency c.
Proof. now rewrite configDefault_merged. Qed.

Lemma timeZoneLocation_configDefault c r :
  timeZoneLocation (configDefault (c :: r)) = timeZoneLocation c.
Proof. now rewrite configDefault_merged. Qed.

Lemma Config_eq_fields (a b : Config) :
  Stream a = Stream b -> Next a = Next b -> Skip a = Skip b ->
  Done a = Done b -> CustomTags a = CustomTags b ->
  BeforeHandlerFunc a = BeforeHandlerFunc b ->
  LoggerFunc a = LoggerFunc b ->
  timeZoneLocation a = timeZoneLocation b ->
  Format a = Format b -> TimeFormat a = TimeFormat b ->
  TimeZone a = TimeZone b -> TimeInterval a = TimeInterval b ->
  DisableColors a = DisableColors b -> enableColors a = enableColors b ->
  enableLatency a = enableLatency b -> a = b.
Proof. destruct a, b; simpl; intros; subst; reflexivity. Qed.

(** X1: only the first config of the variadic argument counts; the
    configs after it are never read. *)
Theorem configDefault_first_only c r :
  configDefault (c :: r) = configDefault [c].
Proof. now rewrite !configDefault_merged. Qed.

(** X2: the resolver returns [Next], [Skip], [Done], [timeZoneLocation],
    [DisableColors] and [enableLatency] as supplied, although it assigns
    the first three when they are nil. *)
Theorem untouched_fields c r :
  Next (configDefault (c :: r)) = Next c /\
  Skip (configDefault (c :: r)) = Skip c /\
  Done (configDefault (c :: r)) = Done c /\
  timeZoneLocation (configDefault (c :: r)) = timeZoneLocation c /\
  DisableColors (configDefault (c :: r)) = DisableColors c /\
  enableLatency (configDefault (c :: r)) = enableLatency c.
Proof.
  rewrite Next_configDefault, Skip_configDefault, Done_configDefault,
    timeZoneLocation_configDefault, DisableColors_configDefault,
    enableLatency_configDefault.
  repeat split.
Qed.

(** X3: the resolved color flag is on exactly when it was on in the input,
    or [DisableColors] is false and the sink is nil or the default
    stream. *)
Theorem enableColors_iff c r :
  enableColors (configDefault (c :: r)) = true <->
  enableColors c = true \/
  (DisableColors c = false /\ (Stream c = None \/ Stream c = Some Stdout)).
Proof.
  rewrite enableColors_configDefault, <- (Stream_default_iff c r).
  destruct (DisableColors c); cbn [negb andb].
  - split; [auto | intros [?|[? _]]; [assumption | discriminate]].
  - case_bool_decide; split; auto.
    intros [?|[_ ?]]; [assumption | contradiction].
Qed.

Lemma resolved_cons_invariant c r :
  Stream (configDefault (c :: r)) <> None /\
  Format (configDefault (c :: r)) <> "" /\
  TimeFormat (configDefault (c :: r)) <> "" /\
  TimeZone (configDefault (c :: r)) <> "" /\
  0 < to_int intSize (TimeInterval (configDefault (c :: r))) /\
  BeforeHandlerFunc (configDefault (c :: r)) <> None /\
  LoggerFunc (configDefault (c :: r)) <> None.
Proof.
  rewrite Stream_configDefault, Format_configDefault,
    TimeFormat_configDefault, TimeZone_configDefault,
    TimeInterval_configDefault, BeforeHandlerFunc_configDefault,
    LoggerFunc_configDefault.
  repeat split.
  - now destruct (Stream c).
  - case_bool_decide; [apply defaultFormat_nonempty | assumption].
  - case_bool_decide; [discriminate | assumption].
  - case_bool_decide; [discriminate | assumption].
  - destruct (Z.leb_spec (to_int intSize (TimeInterval c)) 0).
    + now rewrite to_int_default.
    + assumption.
  - now destruct (BeforeHandlerFunc c).
  - now destruct (LoggerFunc c).
Qed.

(** X4: whatever the arguments and the target, the resolved config has a
    sink, a non-empty format, time layout and time zone, both funcs, and an
    interval whose conversion to [int] is strictly positive. *)
Theorem resolved_invariant config :
  Stream (configDefault config) <> None /\
  Format (configDefault config) <> "" /\
  TimeFormat (configDefault config) <> "" /\
  TimeZone (configDefault config) <> "" /\
  0 < to_int intSize (TimeInterval (configDefault config)) /\
  BeforeHandlerFunc (configDefault config) <> None /\
  LoggerFunc (configDefault config) <> None.
Proof.
  destruct config as [|c r].
  - rewrite configDefault_nil. cbn [Stream Format TimeFormat TimeZone
      TimeInterval BeforeHandlerFunc LoggerFunc ConfigDefault].
    rewrite to_int_default. repeat split; discriminate.
  - apply resolved_cons_invariant.
Qed.

(** X5: the resolver returns its argument unchanged exactly when the
    argument is complete: sink, format, time layout, time zone and both
    funcs set, an interval whose conversion to [int] is strictly positive,
    and the color flag already on if colors are not disabled and the sink is
    the default stream. *)
Theorem configDefault_fixed_iff c :
  configDefault [c] = c <->
  Stream c <> None /\ Format c <> "" /\ TimeFormat c <> "" /\
  TimeZone c <> "" /\ 0 < to_int intSize (TimeInterval c) /\
  BeforeHandlerFunc c <> None /\ LoggerFunc c <> None /\
  (DisableColors c = false -> Stream c = Some Stdout ->
   enableColors c = true).
Proof.
  split.
  - intros Hfix.
    destruct (resolved_cons_invariant c [])
      as (Hs & Hf & Htf & Htz & Hti & Hb & Hl).
    rewrite Hfix in Hs, Hf, Htf, Htz, Hti, Hb, Hl.
    repeat split; try assumption.
    intros Hd Hst.
    assert (He : enableColors (configDefault [c]) = enableColors c)
      by now rewrite Hfix.
    rewrite enableColors_configDefault, Stream_configDefault, Hd, Hst in He.
    cbn [is_nil negb andb] in He.
    now rewrite bool_decide_eq_true_2 in He.
  - intros (Hs & Hf & Htf & Htz & Hti & Hb & Hl & Hc).
    apply Config_eq_fields.
    + rewrite Stream_configDefault. now destruct (Stream c).
    + apply Next_configDefault.
    + apply Skip_configDefault.
    + apply Done_configDefault.
    + now rewrite configDefault_merged.
    + rewrite BeforeHandlerFunc_configDefault.
      now destruct (BeforeHandlerFunc c).
    + rewrite LoggerFunc_configDefault. now destruct (LoggerFunc c).
    + apply timeZoneLocation_configDefault.
    + rewrite Format_configDefault. now rewrite bool_decide_eq_false_2.
    + rewrite TimeFormat_configDefault. now rewrite bool_decide_eq_false_2.
    + rewrite TimeZone_configDefault. now rewrite bool_decide_eq_false_2.
    + rewrite TimeInterval_configDefault.
      destruct (Z.leb_spec (to_int intSize (TimeInterval c)) 0);
        [lia | reflexivity].
    + apply DisableColors_configDefault.
    + rewrite enableColors_configDefault, Stream_configDefault.
      destruct (Stream c) as [w|] eqn:Hw; [| contradiction].
      cbn [is_nil]. destruct (DisableColors c); cbn [negb andb];
        [reflexivity |].
      case_bool_decide; [symmetry; now apply Hc | reflexivity].
    + apply enableLatency_configDefault.
Qed.

(** ** The interval guard, target by target *)

(** X6: on a 64-bit target the interval guard is the documented one.  A
    non-positive interval becomes 500ms, a positive one is kept, and the
    resolved interval is strictly positive. *)
Theorem TimeInterval_rule_Int64 c r :
  intSize = Int64 -> int64_range (TimeInterval c) ->
  (TimeInterval c <= 0 ->
     TimeInterval (configDefault (c :: r)) = 500 * Millisecond) /\
  (0 < TimeInterval c ->
     TimeInterval (configDefault (c :: r)) = TimeInterval c) /\
  0 < TimeInterval (configDefault (c :: r)).
Proof.
  intros HI Hr.
  destruct (TimeInterval_fits c r (fits_int_Int64 _ HI Hr)) as [Hle Hgt].
  split; [exact Hle |]. split; [exact Hgt |].
  destruct (Z.le_gt_cases (TimeInterval c) 0) as [H|H].
  - now rewrite (Hle H).
  - now rewrite (Hgt H).
Qed.

(** X7: on every target, an interval that fits 32 bits (within about 2.147
    seconds of zero) is treated as documented: replaced by 500ms when
    non-positive, kept when positive. *)
Theorem TimeInterval_rule_small c r :
  int32_range (TimeInterval c) ->
  (TimeInterval c <= 0 ->
     TimeInterval (configDefault (c :: r)) = 500 * Millisecond) /\
  (0 < TimeInterval c ->
     TimeInterval (configDefault (c :: r)) = TimeInterval c) /\
  0 < TimeInterval (configDefault (c :: r)).
Proof.
  intros Hr.
  destruct (TimeInterval_fits c r (fits_int_small _ Hr)) as [Hle Hgt].
  split; [exact Hle |]. split; [exact Hgt |].
  destruct (Z.le_gt_cases (TimeInterval c) 0) as [H|H].
  - now rewrite (Hle H).
  - now rewrite (Hgt H).
Qed.


(** ** How the resolver merges and composes *)

(** X10: on every target each defaultable field follows one rule: unset, it
    takes the default; set, it is kept.  For the interval "set" means that
    its conversion to [int] is strictly positive. *)
Theorem merge_rule c r :
  (Stream c = None -> Stream (configDefault (c :: r)) = Some Stdout) /\
  (Stream c <> None -> Stream (configDefault (c :: r)) = Stream c) /\
  (Format c <> "" -> Format (configDefault (c :: r)) = Format c) /\
  (TimeFormat c = "" ->
     TimeFormat (configDefault (c :: r)) = "15:04:05") /\
  (TimeFormat c <> "" ->
     TimeFormat (configDefault (c :: r)) = TimeFormat c) /\
  (TimeZone c = "" -> TimeZone (configDefault (c :: r)) = "Local") /\
  (TimeZone c <> "" -> TimeZone (configDefault (c :: r)) = TimeZone c) /\
  (BeforeHandlerFunc c = None ->
     BeforeHandlerFunc (configDefault (c :: r)) = Some beforeHandlerFunc) /\
  (BeforeHandlerFunc c <> None ->
     BeforeHandlerFunc (configDefault (c :: r)) = BeforeHandlerFunc c) /\
  (LoggerFunc c = None ->
     LoggerFunc (configDefault (c :: r)) = Some defaultLoggerInstance) /\
  (LoggerFunc c <> None ->
     LoggerFunc (configDefault (c :: r)) = LoggerFunc c) /\
  (to_int intSize (TimeInterval c) <= 0 ->
     TimeInterval (configDefault (c :: r)) = 500 * Millisecond) /\
  (0 < to_int intSize (TimeInterval c) ->
     TimeInterval (configDefault (c :: r)) = TimeInterval c).
Proof.
  rewrite Stream_configDefault, Format_configDefault,
    TimeFormat_configDefault, TimeZone_configDefault,
    BeforeHandlerFunc_configDefault, LoggerFunc_configDefault,
    TimeInterval_configDefault.
  repeat split; intros H;
    try (now rewrite H);
    try (now rewrite bool_decide_eq_false_2);
    try (apply is_nil_false in H; now rewrite H).
  - destruct (Z.leb_spec (to_int intSize (TimeInterval c)) 0);
      [reflexivity | lia].
  - destruct (Z.leb_spec (to_int intSize (TimeInterval c)) 0);
      [lia | reflexivity].
Qed.

(** X11: assigning a non-empty format, time layout or time zone before
    resolving gives the same config as assigning it to the resolved
    config. *)
Theorem set_string_commutes c r (v : string) :
  v <> "" ->
  configDefault (set_Format c v :: r) =
    set_Format (configDefault (c :: r)) v /\
  configDefault (set_TimeFormat c v :: r) =
    set_TimeFormat (configDefault (c :: r)) v /\
  configDefault (set_TimeZone c v :: r) =
    set_TimeZone (configDefault (c :: r)) v.
Proof.
  intros Hv. rewrite !configDefault_merged. destruct c.
  unfold merged, set_Format, set_TimeFormat, set_TimeZone.
  cbn [Stream Next Skip Done CustomTags BeforeHandlerFunc LoggerFunc
       timeZoneLocation Format TimeFormat TimeZone TimeInterval
       DisableColors enableColors enableLatency].
  now rewrite (bool_decide_eq_false_2 (v = "")).
Qed.

(** X12: colors are decided from the sink at resolve time.  For a config
    with colors not disabled and no sink (or the default one), naming
    another sink before resolving leaves colors off, while assigning that
    sink to the resolved config leaves them on. *)
Theorem late_sink_keeps_colors c r (w : Writer) :
  DisableColors c = false -> enableColors c = false ->
  Stream c = None \/ Stream c = Some Stdout ->
  w <> Stdout ->
  enableColors (configDefault (set_Stream c (Some w) :: r)) = false /\
  Stream (configDefault (set_Stream c (Some w) :: r)) = Some w /\
  enableColors (set_Stream (configDefault (c :: r)) (Some w)) = true /\
  Stream (set_Stream (configDefault (c :: r)) (Some w)) = Some w.
Proof.
  intros Hd He Hs Hw.
  rewrite !configDefault_merged. destruct c.
  cbn [Stream DisableColors enableColors] in Hd, He, Hs. subst.
  unfold merged, set_Stream.
  cbn [Stream Next Skip Done CustomTags BeforeHandlerFunc LoggerFunc
       timeZoneLocation Format TimeFormat TimeZone TimeInterval
       DisableColors enableColors enableLatency is_nil negb andb].
  rewrite (bool_decide_eq_false_2 (Some w = Some Stdout)) by congruence.
  repeat split.
  destruct Hs as [-> | ->]; cbn [is_nil];
    now rewrite (bool_decide_eq_true_2 (Some Stdout = Some Stdout)).
Qed.

End Resolver.

(** ** A concrete target

    Files stand for the [io.Writer] values ([*os.File], identified by
    descriptor), named funcs for the func values.  The zero [Config] is the
    struct literal [Config{}]. *)

Inductive File := NewFile (fd : Z).

#[global] Instance File_eq_dec : EqDecision File.
Proof. solve_decision. Defined.

Definition os_Stdout : File := NewFile 1.
Definition os_Stderr : File := NewFile 2.

Inductive Func := func (name : string).

Definition beforeHandlerFunc : Func := func "beforeHandlerFunc".
Definition defaultLoggerInstance : Func := func "defaultLoggerInstance".

Definition Cfg : Type := @Config File Func Func Func Func Func unit.

Definition zero : Cfg :=
  mkConfig None None None None None None None None "" "" "" 0
    false false false.

(** C1, counterexample: the zero config has an empty [Format], and the
    resolver returns the default format for it, not the empty string. *)
Lemma empty_Format_replaced :
  Format zero = "" /\
  Format (configDefault os_Stdout beforeHandlerFunc defaultLoggerInstance
            Int64 [zero]) <> "".
Proof. split; [reflexivity | vm_compute; discriminate]. Qed.

(** The amended C1 at the zero config. *)
Lemma empty_Format_defaulted_witness :
  Format zero = "" /\
  Format (configDefault os_Stdout beforeHandlerFunc defaultLoggerInstance
            Int64 [zero]) = defaultFormat /\
  Format (configDefault os_Stdout beforeHandlerFunc defaultLoggerInstance
            Int64 [zero]) <> "".
Proof.
  split; [reflexivity |].
  apply (empty_Format_defaulted os_Stdout beforeHandlerFunc
           defaultLoggerInstance Int64 zero []).
  reflexivity.
Defined.

(** C3 at [Config{Stream: os.Stderr}]. *)
Lemma colors_enabled_iff_witness :
  let c := set_Stream zero (Some os_Stderr) in
  let res := configDefault os_Stdout beforeHandlerFunc defaultLoggerInstance
               Int64 [c] in
  enableColors c = false /\
  (enableColors res = true <->
     DisableColors c = false /\
     (Stream c = None \/ Stream c = Some os_Stdout)) /\
  (Stream c = None -> Stream res = Some os_Stdout) /\
  (DisableColors c = true -> enableColors res = false) /\
  (forall w, Stream c = Some w -> w <> os_Stdout ->
     enableColors res = false).
Proof.
  intros c res. split; [reflexivity |].
  apply (colors_enabled_iff os_Stdout beforeHandlerFunc
           defaultLoggerInstance Int64 c []).
  reflexivity.
Defined.

(** C9 at a config with the flag set, [DisableColors] set and the sink
    [os.Stderr]. *)
Lemma enableColors_monotone_witness :
  let c := set_enableColors
             (mkConfig (Some os_Stderr) None None None None None None None
                "" "" "" 0 true false false : Cfg) true in
  enableColors c = true /\ DisableColors c = true /\
  Stream c <> Some os_Stdout /\
  enableColors (configDefault os_Stdout beforeHandlerFunc
                  defaultLoggerInstance Int64 [c]) = true.
Proof.
  intros c. split; [reflexivity |]. split; [reflexivity |].
  split; [discriminate |].
  apply (enableColors_monotone os_Stdout beforeHandlerFunc
           defaultLoggerInstance Int64 c []).
  reflexivity.
Defined.

(** C10 at a config with one custom tag. *)
Lemma CustomTags_unchanged_witness :
  let tags : gmap string Func := {[ "custom" := func "custom" ]} in
  let c : Cfg :=
    mkConfig None None None None (Some tags) None None None "" "" "" 0
      false false false in
  CustomTags (configDefault os_Stdout beforeHandlerFunc
                defaultLoggerInstance Int64 [c]) = Some tags.
Proof.
  intros tags c.
  exact (proj1 (CustomTags_unchanged os_Stdout beforeHandlerFunc
                  defaultLoggerInstance Int64 c [])).
Defined.

(** ** The interval guard on a 32-bit target

    [int(cfg.TimeInterval)] keeps the low 32 bits of the nanosecond count.
    Three seconds are 3000000000 ns, past [2^31 - 1]: as an [int] that is
    -1294967296. *)

Example to_int_3s : to_int Int32 (3 * Second) = -1294967296.
Proof. reflexivity. Qed.

Example to_int_minus_3s : to_int Int32 (- 3 * Second) = 1294967296.
Proof. reflexivity. Qed.

(** C2, on a 32-bit target: [Config{TimeInterval: 3 * time.Second}] has a
    strictly positive interval and it is replaced by 500ms;
    [Config{TimeInterval: -3 * time.Second}] has a negative interval and it
    is kept.  On a 64-bit target the first is kept and the second
    replaced. *)
Theorem TimeInterval_guard_Int32 :
  let resolve w c :=
    configDefault os_Stdout beforeHandlerFunc defaultLoggerInstance w [c] in
  let c3 := set_TimeInterval zero (3 * Second) in
  let m3 := set_TimeInterval zero (- 3 * Second) in
  (0 < TimeInterval c3 /\
   TimeInterval (resolve Int32 c3) = 500 * Millisecond /\
   TimeInterval (resolve Int64 c3) = 3 * Second) /\
  (TimeInterval m3 <= 0 /\
   TimeInterval (resolve Int32 m3) = - 3 * Second /\
   TimeInterval (resolve Int64 m3) = 500 * Millisecond).
Proof. vm_compute. repeat split; discriminate. Qed.

(** C4, on a 32-bit target: the non-positive interval of
    [Config{TimeInterval: -3 * time.Second}] does not become 500ms. *)
Theorem nonpositive_interval_kept_Int32 :
  let c := set_TimeInterval zero (- 3 * Second) in
  TimeInterval c <= 0 /\
  TimeInterval (configDefault os_Stdout beforeHandlerFunc
                  defaultLoggerInstance Int32 [c]) <> 500 * Millisecond.
Proof. vm_compute. split; discriminate. Qed.

(** C6, on a 32-bit target: the positive interval the caller set in
    [Config{TimeInterval: 4 * time.Second}] is not in the returned config. *)
Theorem positive_interval_lost_Int32 :
  let c := set_TimeInterval zero (4 * Second) in
  0 < TimeInterval c /\
  TimeInterval (configDefault os_Stdout beforeHandlerFunc
                  defaultLoggerInstance Int32 [c]) <> TimeInterval c.
Proof. vm_compute. split; [reflexivity | discriminate]. Qed.

(** C7, on a 32-bit target: the config resolved from
    [Config{TimeInterval: -7 * time.Second}] has a negative interval. *)
Theorem negative_interval_survives_Int32 :
  let c := set_TimeInterval zero (- 7 * Second) in
  TimeInterval (configDefault os_Stdout beforeHandlerFunc
                  defaultLoggerInstance Int32 [c]) = - 7 * Second /\
  ~ 0 < TimeInterval (configDefault os_Stdout beforeHandlerFunc
                        defaultLoggerInstance Int32 [c]).
Proof. vm_compute. split; [reflexivity | discriminate]. Qed.

(** ** 32-bit and 64-bit targets side by side *)

Section Targets.

Context {Writer : Type} `{EqDecision Writer} (Stdout : Writer).
Context {CtxPred DoneFunc LogFunc BeforeHandler LoggerFn Location : Type}.
Context (before : BeforeHandler) (logger : LoggerFn).

(** X9: a config whose interval fits 32 bits resolves to the same config
    on a 32-bit and on a 64-bit target. *)
Theorem targets_agree
    (c : @Config Writer CtxPred DoneFunc LogFunc BeforeHandler LoggerFn
           Location) r :
  int32_range (TimeInterval c) ->
  configDefault Stdout before logger Int32 (c :: r) =
  configDefault Stdout before logger Int64 (c :: r).
Proof.
  intros Hr. rewrite !configDefault_merged. unfold merged.
  rewrite to_int_Int32 by assumption.
  rewrite to_int_Int64; [reflexivity |].
  unfold int32_range, int64_range in *. lia.
Qed.

End Targets.

(** X6 at [Config{TimeInterval: 3 * time.Second}] on a 64-bit target. *)
Lemma TimeInterval_rule_Int64_witness :
  let c := set_TimeInterval zero (3 * Second) in
  let res := configDefault os_Stdout beforeHandlerFunc defaultLoggerInstance
               Int64 [c] in
  int64_range (TimeInterval c) /\
  (TimeInterval c <= 0 -> TimeInterval res = 500 * Millisecond) /\
  (0 < TimeInterval c -> TimeInterval res = TimeInterval c) /\
  0 < TimeInterval res.
Proof.
  intros c res.
  assert (Hr : int64_range (TimeInterval c))
    by (vm_compute; split; [discriminate | reflexivity]).
  split; [exact Hr |].
  exact (TimeInterval_rule_Int64 os_Stdout beforeHandlerFunc
           defaultLoggerInstance Int64 c [] eq_refl Hr).
Defined.

(** X7 at [Config{TimeInterval: 2 * time.Second}] on a 32-bit target. *)
Lemma TimeInterval_rule_small_witness :
  let c := set_TimeInterval zero (2 * Second) in
  let res := configDefault os_Stdout beforeHandlerFunc defaultLoggerInstance
               Int32 [c] in
  int32_range (TimeInterval c) /\
  (TimeInterval c <= 0 -> TimeInterval res = 500 * Millisecond) /\
  (0 < TimeInterval c -> TimeInterval res = TimeInterval c) /\
  0 < TimeInterval res.
Proof.
  intros c res.
  assert (Hr : int32_range (TimeInterval c))
    by (vm_compute; split; [discriminate | reflexivity]).
  split; [exact Hr |].
  exact (TimeInterval_rule_small os_Stdout beforeHandlerFunc
           defaultLoggerInstance Int32 c [] Hr).
Defined.


(** X9 at [Config{TimeInterval: 2 * time.Second}]. *)
Lemma targets_agree_witness :
  let c := set_TimeInterval zero (2 * Second) in
  int32_range (TimeInterval c) /\
  configDefault os_Stdout beforeHandlerFunc defaultLoggerInstance Int32 [c] =
  configDefault os_Stdout beforeHandlerFunc defaultLoggerInstance Int64 [c].
Proof.
  intros c.
  assert (Hr : int32_range (TimeInterval c))
    by (vm_compute; split; [discriminate | reflexivity]).
  split; [exact Hr |].
  exact (targets_agree os_Stdout beforeHandlerFunc defaultLoggerInstance
           c [] Hr).
Defined.

(** X11 at the zero config and the format [${status}]. *)
Lemma set_string_commutes_witness :
  let resolve :=
    configDefault os_Stdout beforeHandlerFunc defaultLoggerInstance Int64 in
  let v := "${status}" in
  v <> "" /\
  resolve [set_Format zero v] = set_Format (resolve [zero]) v /\
  resolve [set_TimeFormat zero v] = set_TimeFormat (resolve [zero]) v /\
  resolve [set_TimeZone zero v] = set_TimeZone (resolve [zero]) v.
Proof.
  intros resolve v.
  assert (Hv : v <> "") by discriminate.
  split; [exact Hv |].
  exact (set_string_commutes os_Stdout beforeHandlerFunc
           defaultLoggerInstance Int64 zero [] v Hv).
Defined.

(** X12 at the zero config and the sink [os.Stderr]. *)
Lemma late_sink_keeps_colors_witness :
  let resolve :=
    configDefault os_Stdout beforeHandlerFunc defaultLoggerInstance Int64 in
  enableColors (resolve [set_Stream zero (Some os_Stderr)]) = false /\
  Stream (resolve [set_Stream zero (Some os_Stderr)]) = Some os_Stderr /\
  enableColors (set_Stream (resolve [zero]) (Some os_Stderr)) = true /\
  Stream (set_Stream (resolve [zero]) (Some os_Stderr)) = Some os_Stderr.
Proof.
  intros resolve.
  apply (late_sink_keeps_colors os_Stdout beforeHandlerFunc
           defaultLoggerInstance Int64 zero [] os_Stderr).
  - reflexivity.
  - reflexivity.
  - left; reflexivity.
  - discriminate.
Defined.

End Logger.
